(** * DUBlicat: perceptual-signature engine, image record store and channel scanner

    A shallow embedding of the JavaScript sources [imageHasher.js],
    [imageDatabase.js], [imageAnalyzer.js] and [updatedChannelScanner.js],
    followed by the properties of the specification that speak about them.

    Conventions of the embedding.
    - A JavaScript number is a [number]: an exact rational, [NaN] or a signed
      infinity.  Rounding of IEEE-754 doubles is not modelled; the concrete
      evaluations below use inputs on which double arithmetic is exact.
    - A JavaScript string is a [string]; [s.length] is [String.length] and
      [s[i]] is [String.get i s] (the signatures handled here are ASCII).
    - A function that may [throw] returns an [outcome]; a method that also
      mutates [this] returns the outcome together with the new object.
    - Asynchronous methods run to completion one after the other; a call
      that the source does not await takes effect at once.
    - Network, file-system and clock reads are explicit arguments. *)

From Stdlib Require Import QArith Qfield Lqa String Ascii Sorted.
From stdpp Require Import base decidable option list gmap strings pretty.

Close Scope Q_scope.
Open Scope string_scope.

(** ** JavaScript values *)

Inductive exn : Type :=
  | Error (message : string)
  | TypeError (message : string)
  | RangeError (message : string).

(** [Return v]: normal completion.  [Throw e]: the call throws (an async
    function rejects).  [Crash e]: an exception escapes from a callback of
    the SQLite driver, so the promise of the call is never settled. *)
Inductive outcome (A : Type) : Type :=
  | Return (a : A)
  | Throw (e : exn)
  | Crash (e : exn).
Arguments Return {A} a.
Arguments Throw {A} e.
Arguments Crash {A} e.

#[global] Instance outcome_ret : MRet outcome := fun A a => Return a.

#[global] Instance outcome_bind : MBind outcome := fun A B k m =>
  match m with
  | Return a => k a
  | Throw e => Throw e
  | Crash e => Crash e
  end.

(** [for (const x of xs) { acc = body(acc, x) }] where the body may throw. *)
Fixpoint for_of {A St : Type} (body : St -> A -> outcome St) (xs : list A)
    (acc : St) : outcome St :=
  match xs with
  | [] => Return acc
  | x :: rest => acc' ← body acc x; for_of body rest acc'
  end.

Inductive number : Type :=
  | Num (q : Q)
  | NaN
  | Inf (negative : bool).

Definition Qltb (a b : Q) : bool := negb (Qle_bool b a).

Definition of_Z (z : Z) : number := Num (inject_Z z).

(** [x / y] *)
Definition ndiv (x y : number) : number :=
  match x, y with
  | NaN, _ | _, NaN => NaN
  | Num a, Num b =>
      if Qeq_bool b 0 then (if Qeq_bool a 0 then NaN else Inf (Qltb a 0))
      else Num (a / b)
  | Num _, Inf _ => Num 0
  | Inf s, Num b => Inf (xorb s (Qltb b 0))
  | Inf _, Inf _ => NaN
  end.

(** [x * y] *)
Definition nmul (x y : number) : number :=
  match x, y with
  | NaN, _ | _, NaN => NaN
  | Num a, Num b => Num (a * b)
  | Num a, Inf s | Inf s, Num a =>
      if Qeq_bool a 0 then NaN else Inf (xorb s (Qltb a 0))
  | Inf s, Inf t => Inf (xorb s t)
  end.

(** [x - y] *)
Definition nsub (x y : number) : number :=
  match x, y with
  | NaN, _ | _, NaN => NaN
  | Num a, Num b => Num (a - b)
  | Num _, Inf s => Inf (negb s)
  | Inf s, Num _ => Inf s
  | Inf s, Inf t => if Bool.eqb s t then NaN else Inf s
  end.

(** [x <= y] *)
Definition nle (x y : number) : bool :=
  match x, y with
  | NaN, _ | _, NaN => false
  | Num a, Num b => Qle_bool a b
  | Num _, Inf s => negb s
  | Inf s, Num _ => s
  | Inf s, Inf t => s || negb t
  end.

(** [x >= y] *)
Definition nge (x y : number) : bool := nle y x.

(** A stable ascending sort, as [Array.prototype.sort] and lodash's [sortBy]
    are: [x] is inserted after every element that is not greater. *)
Fixpoint insert_sorted {A : Type} (le : A -> A -> bool) (x : A) (l : list A)
  : list A :=
  match l with
  | [] => [x]
  | y :: rest =>
      if le y x then y :: insert_sorted le x rest else x :: y :: rest
  end.

Definition stable_sort {A : Type} (le : A -> A -> bool) (l : list A) : list A :=
  fold_left (fun sorted x => insert_sorted le x sorted) l [].

(** A chat or user identifier: a string or an integer. *)
Inductive jsid : Type :=
  | IdString (s : string)
  | IdNumber (z : Z).

(** [id.toString()] *)
Definition toString (v : jsid) : string :=
  match v with
  | IdString s => s
  | IdNumber z => pretty z
  end.

(** Truthiness of an identifier: [0] and the empty string are falsy. *)
Definition truthy_id (v : jsid) : bool :=
  match v with
  | IdString s => negb (String.eqb s "")
  | IdNumber z => negb (z =? 0)%Z
  end.

(** Truthiness of a string. *)
Definition truthy (s : string) : bool := negb (String.eqb s "").

(** [a || b] on an optional string with a string default. *)
Definition or_default (a : option string) (b : string) : string :=
  match a with
  | Some s => if truthy s then s else b
  | None => b
  end.

(** ** config.js *)

Module config.
Record t : Type := {
  hashDifferenceThreshold : Z;
  maxImagesInMemory : nat;
  channelId : option string;
  logsFolder : string
}.

(** The values of [config.js] when the environment sets none of its
    variables. *)
Definition default : t := {|
  hashDifferenceThreshold := 10;
  maxImagesInMemory := 100;
  channelId := None;
  logsFolder := "./logs"
|}.

(** [/set_threshold v] assigns [config.hashDifferenceThreshold]. *)
Definition set_threshold (v : Z) (c : t) : t := {|
  hashDifferenceThreshold := v;
  maxImagesInMemory := maxImagesInMemory c;
  channelId := channelId c;
  logsFolder := logsFolder c
|}.
End config.

(** ** The image record

    The object literal built by the scanners ([imageInfo]) and the row of the
    SQLite table [images] share one record; a field that an object does not
    carry is [None]. *)
Record image : Type := {
  fileId : string;
  hash : string;
  messageId : Z;
  chatId : option jsid;
  channelUsername : option string;
  userId : option jsid;
  fileSize : option Z;
  width : option Z;
  height : option Z;
  timestamp : option Z;
  date : option string;
  source : option string;
  addedAt : option string;
  messageLink : option string
}.

(** ** imageHasher.js *)

Module imageHasher.

(** The loop of [calculateHashDistance]:
    [for (i = 0; i < hash1.length; i++) if (hash1[i] !== hash2[i]) distance++]. *)
Definition count_differences (hash1 hash2 : string) : Z :=
  fold_left
    (fun distance i =>
       if decide (String.get i hash1 = String.get i hash2)
       then distance else (distance + 1)%Z)
    (seq 0 (String.length hash1)) 0%Z.

Definition calculateHashDistance (hash1 hash2 : string) : outcome number :=
  if negb (String.length hash1 =? String.length hash2)%nat
  then Throw (Error "Хеши должны быть одинаковой длины")
  else
    let distance := count_differences hash1 hash2 in
    Return (nmul (ndiv (of_Z distance) (of_Z (Z.of_nat (String.length hash1))))
                 (of_Z 100)).

Definition areImagesSimilar (cfg : config.t) (hash1 hash2 : string)
  : outcome bool :=
  distance ← calculateHashDistance hash1 hash2;
  Return (nle distance (of_Z (config.hashDifferenceThreshold cfg))).

Definition calculateSimilarityPercentage (hash1 hash2 : string)
  : outcome number :=
  distance ← calculateHashDistance hash1 hash2;
  let maxDistance := of_Z (Z.of_nat (String.length hash1) * 4) in
  Return (nsub (of_Z 100) (nmul (ndiv distance maxDistance) (of_Z 100))).

(** The inner loop body of [groupSimilarImages] at index [j], for the
    group seeded by [imagesCopy[i]]. *)
Definition compare_step (imagesCopy : list image) (threshold : number)
    (i : nat) (currentImage : image)
    (acc : list image * gset Z) (j : nat) : outcome (list image * gset Z) :=
  let '(group, processedIds) := acc in
  if (i =? j)%nat then Return acc
  else
    match imagesCopy !! j with
    | None => Return acc
    | Some compareImage =>
        if decide (messageId compareImage ∈ processedIds) then Return acc
        else
          similarity ← calculateSimilarityPercentage
                           (hash currentImage) (hash compareImage);
          if nge similarity threshold
          then Return ((group ++ [compareImage])%list,
                       processedIds ∪ {[messageId compareImage]})
          else Return acc
    end.

(** The outer loop body of [groupSimilarImages] at index [i]. *)
Definition group_step (imagesCopy : list image) (threshold : number)
    (acc : list (list image) * gset Z) (i : nat)
  : outcome (list (list image) * gset Z) :=
  let '(groups, processedIds) := acc in
  match imagesCopy !! i with
  | None => Return acc
  | Some currentImage =>
      if decide (messageId currentImage ∈ processedIds) then Return acc
      else
        r ← for_of (compare_step imagesCopy threshold i currentImage)
                (seq 0 (length imagesCopy))
                ([currentImage], processedIds ∪ {[messageId currentImage]});
        let '(group, processedIds') := r in
        if (1 <? length group)%nat
        then Return ((groups ++ [group])%list, processedIds')
        else Return (groups, processedIds')
  end.

(** [groupSimilarImages(images, threshold)]; the deep copy made through
    JSON is the identity on records of strings and integers. *)
Definition groupSimilarImages (images : list image) (threshold : number)
  : outcome (list (list image)) :=
  let imagesCopy := images in
  r ← for_of (group_step imagesCopy threshold)
          (seq 0 (length imagesCopy)) ([], ∅);
  Return (fst r).

(** The default value of the parameter [threshold]. *)
Definition default_threshold : number := of_Z 95.

End imageHasher.

(** ** imageDatabase.js *)

Module imageDatabase.

(** The singleton [ImageDatabase] together with the files it owns.
    [table] is the content of the SQLite table [images] and [jsonFile] the
    content of [image_database.json] when that file exists; both outlive
    the process.  [db] tells whether [this.db] holds an open handle.  The
    AUTOINCREMENT key [id] of the table is read by no code and is left out. *)
Record t : Type := {
  images : list image;
  db : bool;
  loaded : bool;
  useSqlite : bool;
  table : list image;
  jsonFile : option (list image)
}.

Definition constructor (table0 : list image) (jsonFile0 : option (list image)) : t := {|
  images := [];
  db := false;
  loaded := false;
  useSqlite := true;
  table := table0;
  jsonFile := jsonFile0
|}.

Definition set_images (l : list image) (s : t) : t :=
  {| images := l; db := db s; loaded := loaded s; useSqlite := useSqlite s;
     table := table s; jsonFile := jsonFile s |}.
Definition set_db (b : bool) (s : t) : t :=
  {| images := images s; db := b; loaded := loaded s; useSqlite := useSqlite s;
     table := table s; jsonFile := jsonFile s |}.
Definition set_loaded (b : bool) (s : t) : t :=
  {| images := images s; db := db s; loaded := b; useSqlite := useSqlite s;
     table := table s; jsonFile := jsonFile s |}.
Definition set_useSqlite (b : bool) (s : t) : t :=
  {| images := images s; db := db s; loaded := loaded s; useSqlite := b;
     table := table s; jsonFile := jsonFile s |}.
Definition set_table (l : list image) (s : t) : t :=
  {| images := images s; db := db s; loaded := loaded s; useSqlite := useSqlite s;
     table := l; jsonFile := jsonFile s |}.
Definition set_jsonFile (f : option (list image)) (s : t) : t :=
  {| images := images s; db := db s; loaded := loaded s; useSqlite := useSqlite s;
     table := table s; jsonFile := f |}.

(** What the environment answers to one call: the clock when the SQLite
    statement is run ([Date.now()] in seconds and [new Date().toISOString()]),
    the clock when the record is pushed on [this.images], and whether the
    SQLite driver or the file system reports an error. *)
Record env : Type := {
  insertSeconds : Z;
  insertISO : string;
  nowISO : string;
  sqliteError : bool;
  sqliteFileExists : bool;
  jsonError : bool
}.

Definition has_fileId (f : string) (l : list image) : bool :=
  existsb (fun img => String.eqb (fileId img) f) l.

(** [x || d] on an optional integer. *)
Definition or_Z (x : option Z) (d : Z) : Z :=
  match x with
  | Some v => if (v =? 0)%Z then d else v
  | None => d
  end.

(** The row that [INSERT ... VALUES (?, ...)] stores for [imageInfo];
    [chatId] and [userId] are TEXT columns. *)
Definition row_of (e : env) (imageInfo : image) : image := {|
  fileId := fileId imageInfo;
  hash := hash imageInfo;
  messageId := messageId imageInfo;
  chatId := (fun v => IdString (toString v)) <$> chatId imageInfo;
  channelUsername := None;
  userId := (fun v => IdString (toString v)) <$> userId imageInfo;
  fileSize := Some (or_Z (fileSize imageInfo) 0);
  width := Some (or_Z (width imageInfo) 0);
  height := Some (or_Z (height imageInfo) 0);
  timestamp := Some (or_Z (timestamp imageInfo) (insertSeconds e));
  date := None;
  source := Some (or_default (source imageInfo) "unknown");
  addedAt := Some (or_default (addedAt imageInfo) (insertISO e));
  messageLink := None
|}.

Definition null_db : exn :=
  TypeError "Cannot read properties of null".

(** [INSERT OR IGNORE INTO images ...] under [UNIQUE(fileId)]; resolves
    with [this.changes > 0]. *)
Definition _addImageToSqlite (e : env) (imageInfo : image) (s : t)
  : outcome bool * t :=
  if negb (db s) then (Throw null_db, s)
  else if sqliteError e then (Return false, s)
  else if has_fileId (fileId imageInfo) (table s) then (Return false, s)
  else (Return true, set_table (table s ++ [row_of e imageInfo])%list s).

(** [{...imageInfo, addedAt: a}] *)
Definition with_addedAt (a : string) (imageInfo : image) : image := {|
  fileId := fileId imageInfo;
  hash := hash imageInfo;
  messageId := messageId imageInfo;
  chatId := chatId imageInfo;
  channelUsername := channelUsername imageInfo;
  userId := userId imageInfo;
  fileSize := fileSize imageInfo;
  width := width imageInfo;
  height := height imageInfo;
  timestamp := timestamp imageInfo;
  date := date imageInfo;
  source := source imageInfo;
  addedAt := Some a;
  messageLink := messageLink imageInfo
|}.

(** The order lodash's [sortBy] puts on the key [addedAt]: strings by code
    unit, a missing key after every string. *)
Definition addedAt_le (a b : option string) : bool :=
  match a, b with
  | Some x, Some y => String.leb x y
  | Some _, None => true
  | None, Some _ => false
  | None, None => true
  end.

(** [_.sortBy(l, 'addedAt')] *)
Definition sortBy_addedAt (l : list image) : list image :=
  stable_sort (fun a b => addedAt_le (addedAt a) (addedAt b)) l.

(** [l.slice(-n)]; [slice(-0)] is [slice(0)], the whole array. *)
Definition slice_last {A : Type} (n : nat) (l : list A) : list A :=
  if (n =? 0)%nat then l else drop (length l - n) l.

(** [this.images.push(x)] followed by the eviction of the oldest entries. *)
Definition push_and_evict (cfg : config.t) (x : image) (l : list image)
  : list image :=
  let l' := (l ++ [x])%list in
  if (config.maxImagesInMemory cfg <? length l')%nat
  then slice_last (config.maxImagesInMemory cfg) (sortBy_addedAt l')
  else l'.

Definition addImage (cfg : config.t) (e : env) (imageInfo : image) (s : t)
  : outcome bool * t :=
  if negb (loaded s) then (Throw (Error "База данных не загружена"), s)
  else if useSqlite s then
    match _addImageToSqlite e imageInfo s with
    | (Return true, s') =>
        (Return true,
         set_images
           (push_and_evict cfg
              (with_addedAt (or_default (addedAt imageInfo) (nowISO e)) imageInfo)
              (images s')) s')
    | r => r
    end
  else
    if negb (has_fileId (fileId imageInfo) (images s)) then
      (Return true,
       set_images
         (push_and_evict cfg (with_addedAt (nowISO e) imageInfo) (images s)) s)
    else (Return false, s).

(** [this.images.filter(img => img.hash && similarityFunction(hash, img.hash))] *)
Definition findSimilarImages (hash0 : string)
    (similarityFunction : string -> string -> outcome bool) (s : t)
  : outcome (list image) :=
  for_of
    (fun kept img =>
       if truthy (hash img) then
         similar ← similarityFunction hash0 (hash img);
         Return (if similar : bool then (kept ++ [img])%list else kept)
       else Return kept)
    (images s) [].

Definition getAllImages (s : t) : list image := images s.

(** In SQLite mode the callback handed to [db.run] is a [function], whose
    [this] is the statement, so [this.images.length] raises inside the
    callback after the row has been deleted. *)
Definition removeImage (e : env) (fileId0 : string) (s : t)
  : outcome bool * t :=
  let others := List.filter (fun img => negb (String.eqb (fileId img) fileId0)) in
  if useSqlite s then
    if negb (db s) then (Throw null_db, s)
    else if sqliteError e then (Return false, s)
    else (Crash (TypeError "Cannot read properties of undefined"),
          set_table (others (table s)) s)
  else
    let initialLength := length (images s) in
    let s' := set_images (others (images s)) s in
    (Return (negb (initialLength =? length (images s'))%nat), s').

(** [clear()] resolves with a boolean in SQLite mode and with [undefined]
    otherwise. *)
Definition clear (e : env) (s : t) : outcome (option bool) * t :=
  if useSqlite s then
    if negb (db s) then (Throw null_db, s)
    else if sqliteError e then (Return (Some false), s)
    else (Return (Some true), set_images [] (set_table [] s))
  else (Return None, set_images [] s).

Definition save (e : env) (s : t) : t :=
  if useSqlite s then s
  else if jsonError e then s
  else set_jsonFile (Some (images s)) s.

Definition _loadFromJson (e : env) (s : t) : t :=
  match jsonFile s with
  | Some data =>
      if jsonError e then set_images [] s
      else set_loaded true (set_images data s)
  | None => set_loaded true (set_images [] s)
  end.

(** The import of a legacy JSON file into SQLite, one insert per record. *)
Definition import_json (e : env) (jsonImages : list image) (s : t) : t :=
  fold_left (fun s0 img => snd (_addImageToSqlite e img s0)) jsonImages s.

Definition load (e : env) (s : t) : t :=
  if useSqlite s then
    if sqliteError e then _loadFromJson e (set_useSqlite false s)
    else
      let s1 := set_db true s in
      match jsonFile s1 with
      | Some data =>
          if negb (sqliteFileExists e) then
            if jsonError e then _loadFromJson e (set_useSqlite false s1)
            else
              let s2 := set_jsonFile None (import_json e data s1) in
              set_loaded true (set_images (table s2) s2)
          else set_loaded true (set_images (table s1) s1)
      | None => set_loaded true (set_images (table s1) s1)
      end
  else _loadFromJson e s.

End imageDatabase.

(** ** imageAnalyzer.js *)

Module imageAnalyzer.

Record group : Type := {
  baseImage : image;
  similarImages : list image
}.

(** [s.substring(n)] *)
Definition substring_from (n : nat) (s : string) : string :=
  String.substring n (String.length s - n) s.

Definition createMessageLink (img : image) : string :=
  let chatId0 :=
    match chatId img with
    | Some v => if truthy_id v then toString v else ""
    | None => ""
    end in
  let messageId0 := pretty (messageId img) in
  if truthy chatId0 && String.prefix "-100" chatId0 then
    let channelId := substring_from 4 chatId0 in
    "https://t.me/c/" +:+ channelId +:+ "/" +:+ messageId0
  else if truthy chatId0 then
    let channelName := or_default (channelUsername img) chatId0 in
    "https://t.me/" +:+ channelName +:+ "/" +:+ messageId0
  else "".

Definition add_fileIds (l : list image) (processedIds : gset string) : gset string :=
  fold_left (fun ids img => ids ∪ {[fileId img]}) l processedIds.

(** The loop body of [findSimilarGroups]. *)
Definition similar_step (cfg : config.t) (s : imageDatabase.t)
    (acc : list group * gset string) (img : image)
  : outcome (list group * gset string) :=
  let '(groups, processedIds) := acc in
  if decide (fileId img ∈ processedIds) then Return acc
  else
    similar ← imageDatabase.findSimilarImages (hash img)
                (imageHasher.areImagesSimilar cfg) s;
    if (1 <? length similar)%nat then
      let g := {| baseImage := img;
                  similarImages :=
                    List.filter
                      (fun other => negb (String.eqb (fileId other) (fileId img)))
                      similar |} in
      Return ((groups ++ [g])%list, add_fileIds similar processedIds)
    else Return acc.

Definition findSimilarGroups (cfg : config.t) (s : imageDatabase.t)
  : outcome (list group) :=
  r ← for_of (similar_step cfg s) (imageDatabase.getAllImages s) ([], ∅);
  Return (fst r).

(** The records a group holds: its base image and the images similar to it. *)
Definition members (g : group) : list image := baseImage g :: similarImages g.

End imageAnalyzer.

(** ** Telegram messages

    One record covers the shapes the clients return: [message_id], [chat],
    [from] and [photo] are the fields of a Bot API message, the others those
    of an MTProto message.  Each scanning routine reads the fields of the
    client it drives. *)

Module msg.
Record photoSize : Type := {
  file_id : string;
  file_size : option Z;
  width : Z;
  height : Z
}.

Record size : Type := { w : Z; h : Z }.

Record photo_t : Type := {
  photo_id : Z;
  sizes : option (list size)
}.

Record document_t : Type := {
  document_id : Z;
  mime_type : option string;
  document_size : Z
}.

(** [tag] is the field [_] of the media descriptor. *)
Record media_t : Type := {
  tag : option string;
  media_photo : option photo_t;
  document : option document_t
}.

Record t : Type := {
  id : Z;
  message_id : Z;
  date : Z;
  media : option media_t;
  photo : option (list photoSize);
  chat : jsid;
  from : option jsid;
  peer_id : option jsid;
  chat_id : option jsid;
  from_id : option jsid
}.
End msg.

(** ** updatedChannelScanner.js *)

Module updatedChannelScanner.

Record t : Type := {
  isScanning : bool;
  processedMessageIds : gset Z;
  gramjsClient : bool;
  mtprotoClient : bool
}.

Definition constructor : t := {|
  isScanning := false;
  processedMessageIds := ∅;
  gramjsClient := false;
  mtprotoClient := false
|}.

Definition set_isScanning (b : bool) (sc : t) : t :=
  {| isScanning := b; processedMessageIds := processedMessageIds sc;
     gramjsClient := gramjsClient sc; mtprotoClient := mtprotoClient sc |}.
Definition add_processed (m : Z) (sc : t) : t :=
  {| isScanning := isScanning sc;
     processedMessageIds := processedMessageIds sc ∪ {[m]};
     gramjsClient := gramjsClient sc; mtprotoClient := mtprotoClient sc |}.
Definition set_gramjsClient (b : bool) (sc : t) : t :=
  {| isScanning := isScanning sc; processedMessageIds := processedMessageIds sc;
     gramjsClient := b; mtprotoClient := mtprotoClient sc |}.
Definition set_mtprotoClient (b : bool) (sc : t) : t :=
  {| isScanning := isScanning sc; processedMessageIds := processedMessageIds sc;
     gramjsClient := gramjsClient sc; mtprotoClient := b |}.

Record channelInfo : Type := {
  info_id : jsid;
  title : string;
  username : option string
}.

(** The answers of the collaborators of one scan: the Telegram clients, the
    image download and hashing pipeline, the clock and the file system.
    The fetching helpers of the scanner catch every error of their client
    and return an empty array, so their answer is a list; the calls made
    directly on the gramjs client may throw. *)
Record world : Type := {
  isBotChannelAdmin : bool;
  mtprotoConfigured : bool;
  botApiHistory : nat -> list msg.t;
  gramjsHistory : nat -> list msg.t;
  gramjsAllMessages : nat -> list msg.t;
  mtprotoHistory : nat -> list msg.t;
  mtprotoAllMessages : nat -> list msg.t;
  botApiHash : msg.photoSize -> outcome string;
  mtprotoDownload : string -> msg.t -> outcome (option string);
  hashFromFile : string -> outcome string;
  channelMessagesCount : Z;
  gramjsInit : outcome unit;
  getEntity : outcome channelInfo;
  getMessages : positive -> Z -> outcome (list msg.t);
  toISOString : Z -> option string;
  basename : string -> string;
  storeEnv : Z -> imageDatabase.env;
  saveEnv : imageDatabase.env;
  writeFile : outcome unit
}.

Definition message_of (e : exn) : string :=
  match e with Error m | TypeError m | RangeError m => m end.

Definition is_digit (c : ascii) : bool :=
  let n := nat_of_ascii c in (48 <=? n)%nat && (n <=? 57)%nat.

Fixpoint all_digits (s : string) : bool :=
  match s with
  | EmptyString => true
  | String c rest => is_digit c && all_digits rest
  end.

(** [/^\d+$/.test(s)] *)
Definition is_numeric (s : string) : bool := truthy s && all_digits s.

(** [s.replace(/^p/, '')] for a literal prefix [p]. *)
Definition strip_prefix (p s : string) : string :=
  if String.prefix p s
  then String.substring (String.length p) (String.length s - String.length p) s
  else s.

Definition _createMessageLink (channelId : jsid) (messageId0 : Z) : string :=
  let str := toString channelId in
  if String.prefix "-100" str || is_numeric str then
    let pureChannelId := strip_prefix "-100" str in
    "https://t.me/c/" +:+ pureChannelId +:+ "/" +:+ pretty messageId0
  else
    let channelName := strip_prefix "@" str in
    "https://t.me/" +:+ channelName +:+ "/" +:+ pretty messageId0.

Definition tag_is (m : msg.media_t) (name : string) : bool :=
  match msg.tag m with
  | Some t0 => String.eqb t0 name
  | None => false
  end.

Definition image_document (m : msg.media_t) : bool :=
  match msg.document m with
  | Some d =>
      match msg.mime_type d with
      | Some mt => truthy mt && String.prefix "image/" mt
      | None => false
      end
  | None => false
  end.

Definition _hasPhoto (message : msg.t) : bool :=
  match msg.media message with
  | None => false
  | Some m =>
      if tag_is m "messageMediaPhoto" || tag_is m "MessageMediaPhoto"
         || bool_decide (is_Some (msg.media_photo m)) then true
      else if (tag_is m "messageMediaDocument" || tag_is m "MessageMediaDocument")
              && image_document m then true
      else if tag_is m "Photo" then true
      else if bool_decide (is_Some (msg.photo message)) then true
      else false
  end.

(** ["${x}"] for an optional string: [undefined] prints as itself. *)
Definition show_opt (x : option string) : string :=
  match x with Some s => s | None => "undefined" end.

(** [null] is [None]; reading a field of the last element of an empty
    [photo] array throws inside the [try], which also yields [null]. *)
Definition _createPhotoSignature (message : msg.t) : option string :=
  let photoSignature :=
    match msg.media message with
    | Some {| msg.media_photo := Some p |} =>
        let sizes0 := default [] (msg.sizes p) in
        Some ("photo_" +:+ pretty (msg.photo_id p) +:+ "_" +:+
              match last sizes0 with
              | Some largestSize =>
                  pretty (msg.w largestSize) +:+ "x" +:+ pretty (msg.h largestSize)
              | None => "unknown"
              end)
    | Some {| msg.media_photo := None; msg.document := Some doc |} =>
        Some ("doc_" +:+ pretty (msg.document_id doc) +:+ "_" +:+
              show_opt (msg.mime_type doc) +:+ "_" +:+ pretty (msg.document_size doc))
    | _ =>
        match msg.photo message with
        | Some photoSizes =>
            match last photoSizes with
            | Some largestPhoto =>
                Some ("botapi_" +:+ msg.file_id largestPhoto +:+ "_" +:+
                      pretty (msg.width largestPhoto) +:+ "x" +:+
                      pretty (msg.height largestPhoto))
            | None => None
            end
        | None => Some ""
        end
    end in
  match photoSignature with
  | Some s => if truthy s then Some s else None
  | None => None
  end.

(** [getChannelMessagesCount] creates the gramjs client when there is none
    and never throws: on any error it answers 10000. *)
Definition getChannelMessagesCount (w : world) (sc : t) : Z * t :=
  (channelMessagesCount w, set_gramjsClient true sc).

Record duplicateGroup : Type := {
  dg_hash : string;
  dg_images : list image;
  dg_count : nat
}.

Record results_t : Type := {
  totalMessages : nat;
  processedImages : nat;
  similarImagesFound : nat;
  duplicateGroups : list duplicateGroup;
  errors : nat;
  method : string
}.

Record reportEntry : Type := {
  re_messageId : Z;
  re_date : string;
  re_link : string
}.

Record reportGroup : Type := {
  rg_hash : string;
  rg_count : nat;
  original : option reportEntry;
  duplicates : list reportEntry
}.

(** The value a scan resolves with: [{success: false, message}],
    [{success: false, error}] or [{success: true, results, reportFilePath}];
    [report] is the list [duplicateGroups] of the JSON document written at
    [reportFilePath], absent for a scan that writes none. *)
Inductive scanResult : Type :=
  | Busy (message : string)
  | Failed (error : string)
  | Success (results : results_t) (report : option (list reportGroup)).

Definition new_results (method0 : string) : results_t := {|
  totalMessages := 0;
  processedImages := 0;
  similarImagesFound := 0;
  duplicateGroups := [];
  errors := 0;
  method := method0
|}.

Definition add_totalMessages (n : nat) (r : results_t) : results_t :=
  {| totalMessages := totalMessages r + n; processedImages := processedImages r;
     similarImagesFound := similarImagesFound r;
     duplicateGroups := duplicateGroups r; errors := errors r; method := method r |}.
Definition add_processedImages (n : nat) (r : results_t) : results_t :=
  {| totalMessages := totalMessages r; processedImages := processedImages r + n;
     similarImagesFound := similarImagesFound r;
     duplicateGroups := duplicateGroups r; errors := errors r; method := method r |}.
Definition add_similarImagesFound (n : nat) (r : results_t) : results_t :=
  {| totalMessages := totalMessages r; processedImages := processedImages r;
     similarImagesFound := similarImagesFound r + n;
     duplicateGroups := duplicateGroups r; errors := errors r; method := method r |}.
Definition add_errors (n : nat) (r : results_t) : results_t :=
  {| totalMessages := totalMessages r; processedImages := processedImages r;
     similarImagesFound := similarImagesFound r;
     duplicateGroups := duplicateGroups r; errors := errors r + n; method := method r |}.
Definition set_method (m : string) (r : results_t) : results_t :=
  {| totalMessages := totalMessages r; processedImages := processedImages r;
     similarImagesFound := similarImagesFound r;
     duplicateGroups := duplicateGroups r; errors := errors r; method := m |}.
Definition set_duplicateGroups (g : list duplicateGroup) (r : results_t) : results_t :=
  {| totalMessages := totalMessages r; processedImages := processedImages r;
     similarImagesFound := similarImagesFound r;
     duplicateGroups := g; errors := errors r; method := method r |}.

Definition busy_message : string := "Сканирование уже выполняется".
Definition no_channel : exn := Error "ID канала не указан".

(** [channelId || config.channelId] *)
Definition channel_or_default (cfg : config.t) (channelId : option jsid)
  : option jsid :=
  match channelId with
  | Some c => if truthy_id c then Some c else None
  | None => None
  end ∪
  match config.channelId cfg with
  | Some c => if truthy c then Some (IdString c) else None
  | None => None
  end.

(** *** The lightweight scan *)

Definition lightweight_source : string := "channel_scan_lightweight".

(** The body of the loop over the messages of one batch.  The debugging
    output of the first batch formats the date outside the inner [try]; an
    invalid date throws there. *)
Definition lightweight_message (cfg : config.t) (w : world)
    (channelTarget : jsid) (info : channelInfo) (batch : nat)
    (results : results_t) (store : imageDatabase.t) (message : msg.t)
  : outcome results_t * imageDatabase.t :=
  let hasPhoto := _hasPhoto message in
  if (batch =? 0)%nat && (processedImages results <? 5)%nat
     && bool_decide (toISOString w (msg.date message * 1000) = None)
  then (Throw (RangeError "Invalid time value"), store)
  else if hasPhoto then
    match _createPhotoSignature message with
    | Some photoSignature =>
        let messageLink0 := _createMessageLink channelTarget (msg.id message) in
        let dateFormatted :=
          default "Неизвестно" (toISOString w (msg.date message * 1000)) in
        let imageInfo := {|
          fileId := "virtual_" +:+ pretty (msg.id message);
          hash := photoSignature;
          messageId := msg.id message;
          chatId := Some (info_id info);
          channelUsername :=
            match username info with
            | Some u => if truthy u then Some u else None
            | None => None
            end;
          userId := None;
          fileSize := None;
          width := None;
          height := None;
          timestamp := Some (msg.date message);
          date := Some dateFormatted;
          source := Some lightweight_source;
          addedAt := None;
          messageLink := Some messageLink0
        |} in
        match imageDatabase.addImage cfg (storeEnv w (msg.id message))
                imageInfo store with
        | (Return _, store') => (Return (add_processedImages 1 results), store')
        | (_, store') => (Return (add_errors 1 results), store')
        end
    | None => (Return results, store)
    end
  else (Return results, store).

(** [for (const message of messages) { ... }] *)
Fixpoint batch_messages (cfg : config.t) (w : world)
    (channelTarget : jsid) (info : channelInfo) (batch : nat)
    (messages : list msg.t) (results : results_t) (store : imageDatabase.t)
  : outcome results_t * imageDatabase.t :=
  match messages with
  | [] => (Return results, store)
  | message :: rest =>
      match lightweight_message cfg w channelTarget info batch results store message with
      | (Return results', store') =>
          batch_messages cfg w channelTarget info batch rest results' store'
      | failed => failed
      end
  end.

(** The batch loop; [n] batches remain and [batch] have been fetched.  A
    failure keeps what was committed to the store. *)
Fixpoint scan_batches (cfg : config.t) (w : world) (channelTarget : jsid)
    (info : channelInfo) (batchSize : positive) (n batch : nat) (offsetId : Z)
    (results : results_t) (store : imageDatabase.t)
  : outcome results_t * imageDatabase.t :=
  match n with
  | O => (Return results, store)
  | S n' =>
      match getMessages w batchSize offsetId with
      | Return messages =>
          match last messages with
          | None => (Return results, store)
          | Some lastMessage =>
              match batch_messages cfg w channelTarget info batch messages
                      (add_totalMessages (length messages) results) store with
              | (Return results', store') =>
                  scan_batches cfg w channelTarget info batchSize n' (S batch)
                    (msg.id lastMessage) results'
                    (imageDatabase.save (saveEnv w) store')
              | failed => failed
              end
          end
      | Throw e => (Throw e, store)
      | Crash e => (Crash e, store)
      end
  end.

(** [hashGroups]: a [Map] from signature to the images that carry it, in
    insertion order. *)
Fixpoint hashGroups_push (img : image) (m : list (string * list image))
  : list (string * list image) :=
  match m with
  | [] => [(hash img, [img])]
  | (k, imgs) :: rest =>
      if String.eqb k (hash img) then (k, (imgs ++ [img])%list) :: rest
      else (k, imgs) :: hashGroups_push img rest
  end.

Definition hashGroups_of (allImages : list image) : list (string * list image) :=
  fold_left (fun m img => hashGroups_push img m) allImages [].

(** [images.sort((a, b) => (a.timestamp || 0) - (b.timestamp || 0))] *)
Definition sort_by_timestamp (l : list image) : list image :=
  stable_sort
    (fun a b => (imageDatabase.or_Z (timestamp a) 0 <=?
                 imageDatabase.or_Z (timestamp b) 0)%Z) l.

Definition entry_of (channelTarget : jsid) (img : image) : reportEntry := {|
  re_messageId := messageId img;
  re_date := or_default (date img) "Неизвестно";
  re_link := or_default (messageLink img)
               (_createMessageLink channelTarget (messageId img))
|}.

(** The snapshot the duplicate analysis reads. *)
Definition lightweight_snapshot (store : imageDatabase.t) : list image :=
  List.filter
    (fun img => bool_decide (source img = Some lightweight_source))
    (imageDatabase.getAllImages store).

(** The groups built from [hashGroups]: every signature carried by more
    than one image, its images sorted by date. *)
Definition duplicate_groups_of (allImages : list image) : list duplicateGroup :=
  omap
    (fun '(h0, imgs) =>
       if (1 <? length imgs)%nat
       then Some {| dg_hash := h0; dg_images := sort_by_timestamp imgs;
                    dg_count := length imgs |}
       else None)
    (hashGroups_of allImages).

(** [groups.sort((a, b) => b.count - a.count)] *)
Definition sort_by_count_desc (l : list duplicateGroup) : list duplicateGroup :=
  stable_sort (fun a b => (dg_count b <=? dg_count a)%nat) l.

Definition report_group_of (channelTarget : jsid) (g : duplicateGroup)
  : reportGroup := {|
  rg_hash := dg_hash g;
  rg_count := dg_count g;
  original := entry_of channelTarget <$> head (dg_images g);
  duplicates := entry_of channelTarget <$> tail (dg_images g)
|}.

(** The analysis that follows the batch loop. *)
Definition analyse_duplicates (channelTarget : jsid) (results : results_t)
    (store : imageDatabase.t) : results_t * list reportGroup :=
  let allImages := lightweight_snapshot store in
  let groups := duplicate_groups_of allImages in
  let found := foldr (fun g n => (dg_count g - 1) + n) 0 groups in
  let sorted := sort_by_count_desc groups in
  (set_duplicateGroups sorted (add_similarImagesFound found results),
   report_group_of channelTarget <$> sorted).

(** [Math.ceil(estimatedMessageCount / batchSize)] *)
Definition batch_count (estimatedMessageCount : Z) (batchSize : positive) : nat :=
  Z.to_nat ((estimatedMessageCount + Z.pos batchSize - 1) / Z.pos batchSize).

(** The [try] block of [scanEntireChannelWithoutDownload]. *)
Definition lightweight_body (cfg : config.t) (w : world)
    (channelId : option jsid) (batchSize : positive)
    (sc : t) (store : imageDatabase.t)
  : outcome (results_t * list reportGroup) * t * imageDatabase.t :=
  let results := new_results "gramjs" in
  match channel_or_default cfg channelId with
  | None => (Throw no_channel, sc, store)
  | Some channelTarget =>
      let '(estimatedMessageCount, sc1) := getChannelMessagesCount w sc in
      let batchCount := batch_count estimatedMessageCount batchSize in
      let init :=
        if gramjsClient sc1 then Return () else gramjsInit w in
      let sc2 := set_gramjsClient true sc1 in
      match init ≫= (fun _ => getEntity w) with
      | Return info =>
          match scan_batches cfg w channelTarget info batchSize batchCount 0 0
                  results store with
          | (Return results1, store1) =>
              let '(results2, report) :=
                analyse_duplicates channelTarget results1 store1 in
              match writeFile w with
              | Return _ => (Return (results2, report), sc2, store1)
              | Throw e => (Throw e, sc2, store1)
              | Crash e => (Crash e, sc2, store1)
              end
          | (Throw e, store1) => (Throw e, sc2, store1)
          | (Crash e, store1) => (Crash e, sc2, store1)
          end
      | Throw e => (Throw e, sc2, store)
      | Crash e => (Crash e, sc2, store)
      end
  end.

(** [batchSize] is a positive integer, as the default 100 and the values
    of the configuration are. *)
Definition scanEntireChannelWithoutDownload (cfg : config.t) (w : world)
    (channelId : option jsid) (batchSize : positive) (cooldownSeconds : Z)
    (sc : t) (store : imageDatabase.t)
  : scanResult * t * imageDatabase.t :=
  if isScanning sc then (Busy busy_message, sc, store)
  else
    let sc0 := set_isScanning true sc in
    match lightweight_body cfg w channelId batchSize sc0 store with
    | (Return (results, report), sc1, store1) =>
        (Success results (Some report), set_isScanning false sc1, store1)
    | (Throw e, sc1, store1) | (Crash e, sc1, store1) =>
        (Failed (message_of e), set_isScanning false sc1, store1)
    end.

(** *** The scan with download *)

Inductive processResult : Type :=
  | Processed (imageInfo : image) (similarImages : list image)
  | Duplicate
  | ProcessingError (error : string).

Definition find_similar (cfg : config.t) (hash0 : string)
    (store : imageDatabase.t) : outcome (list image) :=
  imageDatabase.findSimilarImages hash0 (imageHasher.areImagesSimilar cfg) store.

Definition undefined_field : exn :=
  TypeError "Cannot read properties of undefined".

(** [imageDatabase.addImage(imageInfo)] is not awaited by the two routines
    below: its effect on the store is kept and its result is dropped. *)
Definition processPhotoFromBotApi (cfg : config.t) (w : world)
    (message : msg.t) (sc : t) (store : imageDatabase.t)
  : processResult * t * imageDatabase.t :=
  if decide (msg.message_id message ∈ processedMessageIds sc)
  then (Duplicate, sc, store)
  else
    let attempt :=
      match last (default [] (msg.photo message)) with
      | None => Throw undefined_field
      | Some photo =>
          hash0 ← botApiHash w photo;
          similarImages ← find_similar cfg hash0 store;
          Return (photo, hash0, similarImages)
      end in
    match attempt with
    | Return (photo, hash0, similarImages) =>
        let imageInfo := {|
          fileId := msg.file_id photo;
          hash := hash0;
          messageId := msg.message_id message;
          chatId := Some (msg.chat message);
          channelUsername := None;
          userId := msg.from message;
          fileSize := msg.file_size photo;
          width := Some (msg.width photo);
          height := Some (msg.height photo);
          timestamp := Some (msg.date message);
          date := None;
          source := Some "channel_scan";
          addedAt := None;
          messageLink := None
        |} in
        let store' :=
          snd (imageDatabase.addImage cfg
                 (storeEnv w (msg.message_id message)) imageInfo store) in
        (Processed imageInfo similarImages,
         add_processed (msg.message_id message) sc, store')
    | Throw e | Crash e => (ProcessingError (message_of e), sc, store)
    end.

(** The size [message.media.photo.sizes[sizes.length - 1]] read for the
    width and the height, [0] when the message carries no photo. *)
Definition largest_size (message : msg.t) : outcome (Z * Z) :=
  match msg.media message with
  | Some {| msg.media_photo := Some p |} =>
      match last (default [] (msg.sizes p)) with
      | Some sz => Return (msg.w sz, msg.h sz)
      | None => Throw undefined_field
      end
  | _ => Return (0, 0)%Z
  end.

Definition processPhotoFromMtprotoApi (cfg : config.t) (w : world)
    (message : msg.t) (clientType : string) (sc : t) (store : imageDatabase.t)
  : processResult * t * imageDatabase.t :=
  if decide (msg.id message ∈ processedMessageIds sc)
  then (Duplicate, sc, store)
  else
    let '(download, sc1) :=
      if String.eqb clientType "gramjs" then
        ((if gramjsClient sc then Return () else gramjsInit w) ≫=
           (fun _ => mtprotoDownload w clientType message),
         set_gramjsClient true sc)
      else if String.eqb clientType "mtprotocore" then
        (mtprotoDownload w clientType message, set_mtprotoClient true sc)
      else (Throw (Error ("Неизвестный тип клиента: " +:+ clientType)), sc) in
    let attempt :=
      downloaded ← download;
      match downloaded with
      | None => Throw (Error "Не удалось скачать изображение")
      | Some filePath =>
          if negb (truthy filePath)
          then Throw (Error "Не удалось скачать изображение")
          else
            hash0 ← hashFromFile w filePath;
            similarImages ← find_similar cfg hash0 store;
            dims ← largest_size message;
            Return (filePath, hash0, similarImages, dims)
      end in
    match attempt with
    | Return (filePath, hash0, similarImages, (width0, height0)) =>
        let imageInfo := {|
          fileId := basename w filePath;
          hash := hash0;
          messageId := msg.id message;
          chatId :=
            Some match msg.peer_id message with
                 | Some channel_id => channel_id
                 | None =>
                     match msg.chat_id message with
                     | Some c => if truthy_id c then c else IdNumber 0
                     | None => IdNumber 0
                     end
                 end;
          channelUsername := None;
          userId := Some (default (IdNumber 0) (msg.from_id message));
          fileSize := Some 0%Z;
          width := Some width0;
          height := Some height0;
          timestamp := Some (msg.date message);
          date := None;
          source := Some ("channel_scan_" +:+ clientType);
          addedAt := None;
          messageLink := None
        |} in
        let store' :=
          snd (imageDatabase.addImage cfg
                 (storeEnv w (msg.id message)) imageInfo store) in
        (Processed imageInfo similarImages,
         add_processed (msg.id message) sc1, store')
    | Throw e | Crash e => (ProcessingError (message_of e), sc1, store)
    end.

Definition determineOptimalMethod (w : world) : string :=
  if negb (isBotChannelAdmin w) then
    if mtprotoConfigured w then "gramjs" else "botapi"
  else
    match botApiHistory w 10 with
    | _ :: _ => "botapi"
    | [] => if mtprotoConfigured w then "gramjs" else "botapi"
    end.

(** The [switch] that fetches the messages with the chosen method. *)
Definition fetch_messages (w : world) (actualMethod : string) (limit : nat)
    (sc : t) : outcome (list msg.t) * t :=
  if String.eqb actualMethod "botapi" then (Return (botApiHistory w limit), sc)
  else if String.eqb actualMethod "gramjs" then
    (Return (if (100 <? limit)%nat then gramjsAllMessages w limit
             else gramjsHistory w limit),
     set_gramjsClient true sc)
  else if String.eqb actualMethod "mtprotocore" then
    (Return (if (100 <? limit)%nat then mtprotoAllMessages w limit
             else mtprotoHistory w limit),
     set_mtprotoClient true sc)
  else (Throw (Error ("Неизвестный метод: " +:+ actualMethod)), sc).

(** The test made by [scanChannel] on each message. *)
Definition has_photo_for (actualMethod : string) (message : msg.t) : bool :=
  if String.eqb actualMethod "botapi"
  then bool_decide (is_Some (msg.photo message))
  else
    match msg.media message with
    | Some m =>
        tag_is m "messageMediaPhoto"
        || (tag_is m "messageMediaDocument" && image_document m)
        || bool_decide (is_Some (msg.media_photo m))
        || tag_is m "Photo"
    | None => false
    end.

(** The body of the loop of [scanChannel] over the fetched messages. *)
Definition scan_message (cfg : config.t) (w : world) (actualMethod : string)
    (acc : results_t * t * imageDatabase.t) (message : msg.t)
  : results_t * t * imageDatabase.t :=
  let '(results, sc, store) := acc in
  if has_photo_for actualMethod message then
    let '(processResult0, sc', store') :=
      if String.eqb actualMethod "botapi"
      then processPhotoFromBotApi cfg w message sc store
      else processPhotoFromMtprotoApi cfg w message actualMethod sc store in
    match processResult0 with
    | Processed _ similarImages =>
        (add_similarImagesFound (length similarImages)
           (add_processedImages 1 results), sc', store')
    | ProcessingError e =>
        (if truthy e then add_errors 1 results else results, sc', store')
    | Duplicate => (results, sc', store')
    end
  else acc.

(** The [try] block of [scanChannel]. *)
Definition scan_body (cfg : config.t) (w : world) (channelId : option jsid)
    (limit : nat) (method0 : string) (sc : t) (store : imageDatabase.t)
  : outcome results_t * t * imageDatabase.t :=
  let results := new_results method0 in
  match channel_or_default cfg channelId with
  | None => (Throw no_channel, sc, store)
  | Some channel =>
      let actualMethod :=
        if String.eqb method0 "auto" then determineOptimalMethod w else method0 in
      let results0 := set_method actualMethod results in
      match fetch_messages w actualMethod limit sc with
      | (Return messages, sc1) =>
          let '(results1, sc2, store1) :=
            fold_left (scan_message cfg w actualMethod) messages
              (add_totalMessages (length messages) results0, sc1, store) in
          (Return results1, sc2, imageDatabase.save (saveEnv w) store1)
      | (Throw e, sc1) => (Throw e, sc1, store)
      | (Crash e, sc1) => (Crash e, sc1, store)
      end
  end.

Definition scanChannel (cfg : config.t) (w : world) (channelId : option jsid)
    (limit : nat) (method0 : string) (sc : t) (store : imageDatabase.t)
  : scanResult * t * imageDatabase.t :=
  if isScanning sc then (Busy busy_message, sc, store)
  else
    let sc0 := set_isScanning true sc in
    match scan_body cfg w channelId limit method0 sc0 store with
    | (Return results, sc1, store1) =>
        (Success results None, set_isScanning false sc1, store1)
    | (Throw e, sc1, store1) | (Crash e, sc1, store1) =>
        (Failed (message_of e), set_isScanning false sc1, store1)
    end.

End updatedChannelScanner.

(** * Vocabulary of the properties and sample inputs *)

(** ** Numbers and signatures *)

(** Equality of numbers: rationals up to [Qeq]. *)
Definition number_eq (x y : number) : Prop :=
  match x, y with
  | Num a, Num b => (a == b)%Q
  | NaN, NaN => True
  | Inf s, Inf t => s = t
  | _, _ => False
  end.

(** The call returns a number equal to [v]. *)
Definition returns (o : outcome number) (v : number) : Prop :=
  match o with
  | Return x => number_eq x v
  | _ => False
  end.

(** The number of positions at which two signatures differ, by recursion on
    the two strings. *)
Fixpoint differing_positions (a b : string) : nat :=
  match a, b with
  | String x a', String y b' =>
      (if Ascii.eqb x y then 0 else 1) + differing_positions a' b'
  | _, _ => 0
  end.


(** [s] ends in [suffix]. *)
Definition ends_in (suffix s : string) : Prop :=
  exists front : string, s = front +:+ suffix.

(** ** Sample inputs *)

(** A record with the given identity, signature, message and chat. *)
Definition sample_image (file : string) (h : string) (message : Z)
    (chat : option jsid) : image := {|
  fileId := file; hash := h; messageId := message; chatId := chat;
  channelUsername := None; userId := None; fileSize := None; width := None;
  height := None; timestamp := None; date := None; source := None;
  addedAt := None; messageLink := None
|}.

(** An environment in which the backend reports no error. *)
Definition sample_env (iso : string) : imageDatabase.env := {|
  imageDatabase.insertSeconds := 1700000000;
  imageDatabase.insertISO := iso;
  imageDatabase.nowISO := iso;
  imageDatabase.sqliteError := false;
  imageDatabase.sqliteFileExists := true;
  imageDatabase.jsonError := false
|}.


(** A world whose gramjs client serves the given batches, the first for
    offset 0 and each next one for the offset the previous batch ends at. *)
Definition sample_world (batches : Z -> list msg.t) : updatedChannelScanner.world := {|
  updatedChannelScanner.isBotChannelAdmin := false;
  updatedChannelScanner.mtprotoConfigured := true;
  updatedChannelScanner.botApiHistory := fun _ => [];
  updatedChannelScanner.gramjsHistory := fun _ => [];
  updatedChannelScanner.gramjsAllMessages := fun _ => [];
  updatedChannelScanner.mtprotoHistory := fun _ => [];
  updatedChannelScanner.mtprotoAllMessages := fun _ => [];
  updatedChannelScanner.botApiHash := fun _ => Throw (Error "offline");
  updatedChannelScanner.mtprotoDownload := fun _ _ => Throw (Error "offline");
  updatedChannelScanner.hashFromFile := fun _ => Throw (Error "offline");
  updatedChannelScanner.channelMessagesCount := 10000;
  updatedChannelScanner.gramjsInit := Return ();
  updatedChannelScanner.getEntity :=
    Return {| updatedChannelScanner.info_id := IdNumber 1234567890;
              updatedChannelScanner.title := "channel";
              updatedChannelScanner.username := None |};
  updatedChannelScanner.getMessages := fun _ offsetId => Return (batches offsetId);
  updatedChannelScanner.toISOString := fun _ => Some "2024-01-01T00:00:00.000Z";
  updatedChannelScanner.basename := fun p => p;
  updatedChannelScanner.storeEnv := fun _ => sample_env "2024-06-01T00:00:00.000Z";
  updatedChannelScanner.saveEnv := sample_env "2024-06-01T00:00:00.000Z";
  updatedChannelScanner.writeFile := Return ()
|}.

(** The error [addImage] throws on a store that is not loaded. *)
Definition not_loaded : exn := Error "База данных не загружена".

Section Runs.
Import imageDatabase.

(** A run of [addImage] over the given records, each with the answers of
    its environment; the results are listed in order. *)
Fixpoint addImages (cfg : config.t) (inputs : list (env * image)) (s : t)
  : list (outcome bool) * t :=
  match inputs with
  | [] => ([], s)
  | (e, imageInfo) :: rest =>
      let '(r, s1) := addImage cfg e imageInfo s in
      let '(rs, s2) := addImages cfg rest s1 in
      (r :: rs, s2)
  end.

(** The [i]-th clock reading of a run: one second after the previous one. *)
Definition pad2 (n : nat) : string :=
  if (n <? 10)%nat then "0" +:+ pretty n else pretty n.

Definition iso_at (i : nat) : string :=
  "2024-06-01T00:" +:+ pad2 (i / 60) +:+ ":" +:+ pad2 (i mod 60) +:+ ".000Z".

(** The [i]-th record of a run of the lightweight scan over a private
    channel, and the record list of the first [n]. *)
Definition lightweight_record (i : nat) : image := {|
  fileId := "virtual_" +:+ pretty i;
  hash := "photo_" +:+ pretty (5000000000000000000 + Z.of_nat i)%Z +:+ "_1280x720";
  messageId := Z.of_nat i;
  chatId := Some (IdNumber 1234567890);
  channelUsername := None;
  userId := None;
  fileSize := None;
  width := None;
  height := None;
  timestamp := Some (1700000000 + Z.of_nat i)%Z;
  date := Some (iso_at i);
  source := Some updatedChannelScanner.lightweight_source;
  addedAt := None;
  messageLink := Some (updatedChannelScanner._createMessageLink
                         (IdString "-1001234567890") (Z.of_nat i))
|}.

Definition lightweight_run (n : nat) : list (env * image) :=
  (fun i => (sample_env (iso_at i), lightweight_record i)) <$> seq 0 n.



End Runs.

(** ** Invariants of the loops of [groupSimilarImages] *)

(** What the inner loop keeps, for the set [P] of identifiers processed
    before the group was opened. *)
Definition group_inv (images : list image) (P : gset Z)
    (st : list image * gset Z) : Prop :=
  let '(group, Q) := st in
  NoDup (messageId <$> group)
  /\ (forall x, x ∈ group -> messageId x ∉ P)
  /\ (forall x, x ∈ group -> messageId x ∈ Q)
  /\ (forall x, x ∈ group -> x ∈ images)
  /\ P ⊆ Q.

(** What the outer loop keeps. *)
Definition groups_inv (images : list image)
    (st : list (list image) * gset Z) : Prop :=
  let '(groups, P) := st in
  NoDup (messageId <$> concat groups)
  /\ (forall x, x ∈ concat groups -> messageId x ∈ P)
  /\ (forall x, x ∈ concat groups -> x ∈ images)
  /\ Forall (fun g => 2 <= length g) groups.


Section ThreeImages.
Import imageDatabase.

Fixpoint repeat_char (c : ascii) (n : nat) : string :=
  match n with
  | O => EmptyString
  | S n' => String c (repeat_char c n')
  end.

(** A 64-digit hexadecimal signature whose first [k] digits are f and whose
    other digits are 0. *)
Definition hex_signature (k : nat) : string :=
  repeat_char "f" k +:+ repeat_char "0" (64 - k).

(** Three records of a scan with download: the signatures of the first and
    the second differ at 6 of 64 positions, those of the second and the third
    at 6, those of the first and the third at 12. *)
Definition scanned_image (i : nat) (k : nat) : image := {|
  fileId := "AgACAgIAAx" +:+ pretty i;
  hash := hex_signature k;
  messageId := Z.of_nat i;
  chatId := Some (IdNumber (-1001234567890));
  channelUsername := None;
  userId := None;
  fileSize := Some 51200%Z;
  width := Some 1280%Z;
  height := Some 720%Z;
  timestamp := Some (1700000000 + Z.of_nat i)%Z;
  date := None;
  source := Some "channel_scan";
  addedAt := None;
  messageLink := None
|}.

Definition image_A : image := scanned_image 1 0.

Definition image_B : image := scanned_image 2 6.

Definition image_C : image := scanned_image 3 12.

Definition three_images : t :=
  snd (addImages config.default
         [(sample_env (iso_at 1), image_A);
          (sample_env (iso_at 2), image_B);
          (sample_env (iso_at 3), image_C)]
         (load (sample_env (iso_at 0)) (constructor [] None))).

End ThreeImages.

Section HashGroupsVocabulary.
Import updatedChannelScanner.



End HashGroupsVocabulary.

Section SampleScans.
Import updatedChannelScanner.






End SampleScans.

(** * Properties *)

(** ** The signature engine *)

Section HashDistance.
Import imageHasher.








End HashDistance.

Section SignatureEngine.
Import imageHasher.




(** C7: "AAAA" and "AAAB" differ at exactly 1 of 4 positions, their
    distance is 25 (percent), and [areImagesSimilar] answers true when the
    configured threshold is 25 and false when it is 10. *)
Theorem threshold_boundary (cfg : config.t) :
  String.length "AAAA" = 4 /\ String.length "AAAB" = 4
  /\ differing_positions "AAAA" "AAAB" = 1
  /\ returns (calculateHashDistance "AAAA" "AAAB") (of_Z 25)
  /\ areImagesSimilar (config.set_threshold 25 cfg) "AAAA" "AAAB" = Return true
  /\ areImagesSimilar (config.set_threshold 10 cfg) "AAAA" "AAAB" = Return false.
Proof.
  split; [reflexivity|]. split; [reflexivity|].
  split; [reflexivity|]. split; [vm_compute; reflexivity|].
  split; reflexivity.
Qed.


End SignatureEngine.

(** ** Link derivation *)

Section Links.
Import updatedChannelScanner imageAnalyzer.

(** C9: for the chat identity "-1001234567890" and message 55 the link
    ends in /c/1234567890/55, and for the chat identity "mychannel" and
    message 10 it ends in /mychannel/10, both in the scanner's
    [_createMessageLink] and in the analyzer's [createMessageLink] (there
    for a record whose [channelUsername] is absent or "mychannel"). *)
Theorem link_derivation (private public : image) :
  chatId private = Some (IdString "-1001234567890") ->
  messageId private = 55%Z ->
  chatId public = Some (IdString "mychannel") ->
  channelUsername public = None \/ channelUsername public = Some "mychannel" ->
  messageId public = 10%Z ->
  _createMessageLink (IdString "-1001234567890") 55 = "https://t.me/c/1234567890/55"
  /\ ends_in "/c/1234567890/55" (_createMessageLink (IdString "-1001234567890") 55)
  /\ _createMessageLink (IdString "mychannel") 10 = "https://t.me/mychannel/10"
  /\ ends_in "/mychannel/10" (_createMessageLink (IdString "mychannel") 10)
  /\ createMessageLink private = "https://t.me/c/1234567890/55"
  /\ ends_in "/c/1234567890/55" (createMessageLink private)
  /\ createMessageLink public = "https://t.me/mychannel/10"
  /\ ends_in "/mychannel/10" (createMessageLink public).
Proof.
  intros Hc1 Hm1 Hc2 Hu2 Hm2.
  assert (L1 : createMessageLink private = "https://t.me/c/1234567890/55").
  { unfold createMessageLink. rewrite Hc1, Hm1. reflexivity. }
  assert (L2 : createMessageLink public = "https://t.me/mychannel/10").
  { unfold createMessageLink. rewrite Hc2, Hm2.
    destruct Hu2 as [-> | ->]; reflexivity. }
  rewrite L1, L2.
  repeat split; try reflexivity.
  - exists "https://t.me". reflexivity.
  - exists "https://t.me". reflexivity.
  - exists "https://t.me". reflexivity.
  - exists "https://t.me". reflexivity.
Qed.

Lemma link_derivation_witness :
  createMessageLink
    (sample_image "f1" "h1" 55 (Some (IdString "-1001234567890")))
  = "https://t.me/c/1234567890/55"
  /\ createMessageLink (sample_image "f2" "h2" 10 (Some (IdString "mychannel")))
     = "https://t.me/mychannel/10".
Proof.
  pose proof (link_derivation
    (sample_image "f1" "h1" 55 (Some (IdString "-1001234567890")))
    (sample_image "f2" "h2" 10 (Some (IdString "mychannel")))
    eq_refl eq_refl eq_refl (or_introl eq_refl) eq_refl) as H.
  split; [apply H | apply H].
Defined.
End Links.

(** ** The scan guard *)

Section ScanGuard.
Import updatedChannelScanner.

(** A scan that passes the guard never answers with the busy result, and
    leaves [isScanning] cleared whatever its outcome. *)
Lemma scan_returns_to_idle
    (cfg : config.t) (w : world) (channelId : option jsid) (limit : nat)
    (method0 : string) (batchSize : positive) (cooldownSeconds : Z)
    (sc : t) (store : imageDatabase.t) :
  isScanning sc = false ->
  (forall m, (scanChannel cfg w channelId limit method0 sc store).1.1 <> Busy m)
  /\ isScanning (scanChannel cfg w channelId limit method0 sc store).1.2 = false
  /\ (forall m,
        (scanEntireChannelWithoutDownload cfg w channelId batchSize
           cooldownSeconds sc store).1.1 <> Busy m)
  /\ isScanning (scanEntireChannelWithoutDownload cfg w channelId batchSize
                   cooldownSeconds sc store).1.2 = false.
Proof.
  intros Hidle. unfold scanChannel, scanEntireChannelWithoutDownload.
  rewrite Hidle.
  destruct (scan_body _ _ _ _ _ _ _) as [[[r| |] sc1] store1];
    destruct (lightweight_body _ _ _ _ _ _) as [[[[r' rep]| |] sc2] store2];
    cbn; repeat split; try reflexivity; intros m; discriminate.
Qed.

(** C5: while [isScanning] is set, [scanChannel] and
    [scanEntireChannelWithoutDownload] resolve with the failed result that
    carries the busy message, and leave the scanner and the store as they
    were.  No counter is touched: a scan creates its counters after the
    guard, and those of the scan in progress belong to its own activation,
    which the rejected call neither receives nor returns. *)
Theorem scan_while_scanning_is_busy
    (cfg : config.t) (w : world) (channelId : option jsid) (limit : nat)
    (method0 : string) (batchSize : positive) (cooldownSeconds : Z)
    (sc : t) (store : imageDatabase.t) :
  isScanning sc = true ->
  scanChannel cfg w channelId limit method0 sc store
    = (Busy busy_message, sc, store)
  /\ scanEntireChannelWithoutDownload cfg w channelId batchSize cooldownSeconds
       sc store
     = (Busy busy_message, sc, store).
Proof.
  intros Hbusy. unfold scanChannel, scanEntireChannelWithoutDownload.
  rewrite Hbusy. split; reflexivity.
Qed.

Lemma scan_while_scanning_is_busy_witness :
  let sc := set_isScanning true constructor in
  let store := imageDatabase.load (sample_env "2024-01-01T00:00:00.000Z")
                 (imageDatabase.constructor [] None) in
  scanChannel config.default (sample_world (fun _ => [])) (Some (IdString "mychannel"))
    100 "auto" sc store = (Busy busy_message, sc, store)
  /\ scanEntireChannelWithoutDownload config.default (sample_world (fun _ => []))
       (Some (IdString "mychannel")) 100 3 sc store
     = (Busy busy_message, sc, store).
Proof.
  intros sc store.
  apply (scan_while_scanning_is_busy config.default (sample_world (fun _ => []))
           (Some (IdString "mychannel")) 100 "auto" 100 3 sc store).
  reflexivity.
Defined.
End ScanGuard.

(** ** The store before [load] *)

Section NotLoaded.
Import imageDatabase.

Lemma db_import_json (e : env) (l : list image) (s : t) :
  db (import_json e l s) = db s.
Proof.
  unfold import_json. revert s.
  induction l as [|x l IH]; intros s; [reflexivity|].
  cbn [fold_left]. rewrite IH. unfold _addImageToSqlite.
  destruct (negb (db s)); [reflexivity|].
  destruct (sqliteError e); [reflexivity|].
  destruct (has_fileId (fileId x) (table s)); reflexivity.
Qed.

(** A store that [load] has put in SQLite mode holds an open handle. *)
Lemma load_opens_db (e : env) (table0 : list image)
    (jsonFile0 : option (list image)) :
  let s := load e (constructor table0 jsonFile0) in
  loaded s = true -> useSqlite s = true -> db s = true.
Proof.
  unfold load, constructor, _loadFromJson. cbn.
  destruct (sqliteError e); cbn.
  - destruct jsonFile0; [destruct (jsonError e)|]; cbn; discriminate.
  - destruct jsonFile0 as [l|]; [|reflexivity].
    destruct (sqliteFileExists e); cbn; [reflexivity|].
    destruct (jsonError e); cbn; [discriminate|]. intros _ _.
    rewrite db_import_json. reflexivity.
Qed.

(** C8, as stated, fails: before [load], [findSimilarImages] and
    [getAllImages] do not fail; they answer with the empty list, even when
    the durable table holds a record. *)
Lemma reads_before_load_do_not_fail :
  let row := sample_image "f1" "abcd" 1 None in
  let s := constructor [row] None in
  findSimilarImages "abcd" (imageHasher.areImagesSimilar config.default) s = Return []
  /\ ~ (exists e, findSimilarImages "abcd"
                    (imageHasher.areImagesSimilar config.default) s = Throw e)
  /\ getAllImages s = [].
Proof.
  cbn. split; [reflexivity|]. split; [|reflexivity].
  intros [e He]. discriminate.
Qed.

(** C8, amended: before [load], [addImage] fails with the not-loaded error
    and leaves the store as it was; [removeImage] and [clear] fail as well
    and leave the store as it was; [findSimilarImages] and [getAllImages]
    do not fail and answer with the empty list. *)
Theorem operations_before_load
    (cfg : config.t) (e : env) (table0 : list image)
    (jsonFile0 : option (list image)) (imageInfo : image) (fileId0 hash0 : string)
    (similarityFunction : string -> string -> outcome bool) :
  let s := constructor table0 jsonFile0 in
  addImage cfg e imageInfo s = (Throw not_loaded, s)
  /\ (exists err, removeImage e fileId0 s = (Throw err, s))
  /\ (exists err, clear e s = (Throw err, s))
  /\ findSimilarImages hash0 similarityFunction s = Return []
  /\ getAllImages s = [].
Proof.
  cbn. repeat split; try reflexivity; exists null_db; reflexivity.
Qed.
End NotLoaded.

(** ** The working set and the durable table *)

Section WorkingSet.
Import imageDatabase.

Lemma length_insert_sorted {A : Type} (le : A -> A -> bool) (x : A) (l : list A) :
  length (insert_sorted le x l) = S (length l).
Proof.
  induction l as [|y l IH]; [reflexivity|].
  cbn. destruct (le y x); cbn; [rewrite IH|]; reflexivity.
Qed.

Lemma length_stable_sort {A : Type} (le : A -> A -> bool) (l : list A) :
  length (stable_sort le l) = length l.
Proof.
  unfold stable_sort.
  assert (G : forall acc, length (fold_left (fun sorted x => insert_sorted le x sorted) l acc)
                          = length l + length acc).
  { induction l as [|x l IH]; intros acc; cbn; [reflexivity|].
    rewrite IH, length_insert_sorted. lia. }
  rewrite G. cbn. lia.
Qed.

Lemma length_slice_last {A : Type} (n : nat) (l : list A) :
  0 < n -> length (slice_last n l) = Nat.min n (length l).
Proof.
  intros Hn. unfold slice_last.
  destruct (Nat.eqb_spec n 0) as [->|_]; [lia|].
  rewrite length_drop. lia.
Qed.

Lemma length_push_and_evict (cfg : config.t) (x : image) (l : list image) :
  0 < config.maxImagesInMemory cfg ->
  length (push_and_evict cfg x l)
  = Nat.min (config.maxImagesInMemory cfg) (S (length l)).
Proof.
  intros Hmax. unfold push_and_evict.
  destruct (Nat.ltb_spec (config.maxImagesInMemory cfg) (length (l ++ [x]))) as [Hlt|Hge];
    rewrite ?length_slice_last by exact Hmax;
    unfold sortBy_addedAt; rewrite ?length_stable_sort;
    rewrite length_app in *; cbn in *; lia.
Qed.

(** What a successful [addImage] does to the store. *)
Lemma addImage_true (cfg : config.t) (e : env) (imageInfo : image) (s s' : t) :
  addImage cfg e imageInfo s = (Return true, s') ->
  loaded s = true
  /\ loaded s' = true
  /\ useSqlite s' = useSqlite s
  /\ db s' = db s
  /\ (exists x, fileId x = fileId imageInfo
                /\ images s' = push_and_evict cfg x (images s))
  /\ table s' = (if useSqlite s then (table s ++ [row_of e imageInfo])%list
                 else table s)
  /\ (if useSqlite s then has_fileId (fileId imageInfo) (table s)
      else has_fileId (fileId imageInfo) (images s)) = false.
Proof.
  unfold addImage, _addImageToSqlite.
  destruct (loaded s) eqn:Hl; cbn [negb]; [|discriminate].
  destruct (useSqlite s) eqn:Hu.
  - destruct (db s) eqn:Hdb; cbn [negb]; [|discriminate].
    destruct (sqliteError e); [discriminate|].
    destruct (has_fileId (fileId imageInfo) (table s)) eqn:Hh; [discriminate|].
    intros [= <-]. cbn. rewrite Hl, Hu, Hdb.
    repeat split; try reflexivity. eexists. split; [|reflexivity]. reflexivity.
  - destruct (has_fileId (fileId imageInfo) (images s)) eqn:Hh; cbn [negb];
      [discriminate|].
    intros [= <-]. cbn. rewrite Hl, Hu.
    repeat split; try reflexivity. eexists. split; [|reflexivity]. reflexivity.
Qed.

Lemma addImages_all_true (cfg : config.t) (inputs : list (env * image)) (s s' : t)
    (rs : list (outcome bool)) :
  0 < config.maxImagesInMemory cfg ->
  addImages cfg inputs s = (rs, s') ->
  Forall (fun r => r = Return true) rs ->
  inputs <> [] ->
  length (images s')
  = Nat.min (config.maxImagesInMemory cfg) (length (images s) + length inputs)
  /\ useSqlite s' = useSqlite s
  /\ length (table s')
     = (if useSqlite s then length (table s) + length inputs else length (table s)).
Proof.
  intros Hmax. revert s s' rs.
  induction inputs as [|[e imageInfo] rest IH]; intros s s' rs Hrun Hall Hne;
    [congruence|].
  cbn in Hrun.
  destruct (addImage cfg e imageInfo s) as [r s1] eqn:Hadd.
  destruct (addImages cfg rest s1) as [rs' s2] eqn:Hrest.
  injection Hrun as <- <-.
  apply Forall_cons in Hall as [-> Hall].
  apply addImage_true in Hadd
    as (_ & _ & Hu & _ & (x & _ & Himg) & Htab & _).
  assert (Hlen1 : length (images s1)
                  = Nat.min (config.maxImagesInMemory cfg) (S (length (images s)))).
  { rewrite Himg. apply length_push_and_evict. exact Hmax. }
  destruct rest as [|i rest'].
  - cbn in Hrest. injection Hrest as <- <-.
    cbn [length]. rewrite Hlen1, Hu, Htab.
    split; [f_equal; lia|]. split; [reflexivity|].
    destruct (useSqlite s); [rewrite length_app; cbn; lia | reflexivity].
  - specialize (IH s1 s2 rs' Hrest Hall ltac:(discriminate)).
    destruct IH as (IH1 & IH2 & IH3).
    rewrite IH1, IH2, IH3, Hlen1, Hu, Htab.
    split; [cbn [length]; lia|]. split; [reflexivity|].
    destruct (useSqlite s); [rewrite length_app; cbn [length]; lia | reflexivity].
Qed.

(** C1 (defect of the code): when N > maxImagesInMemory records are added
    with success to a loaded store, the in-memory list holds exactly
    maxImagesInMemory records and, in SQLite mode, the durable table has
    grown by N rows; but [getAllImages] returns the in-memory list, so it
    returns maxImagesInMemory records and not the N that were added. *)
Theorem getAll_returns_the_working_set
    (cfg : config.t) (inputs : list (env * image)) (s s' : t)
    (rs : list (outcome bool)) :
  0 < config.maxImagesInMemory cfg ->
  config.maxImagesInMemory cfg < length inputs ->
  addImages cfg inputs s = (rs, s') ->
  Forall (fun r => r = Return true) rs ->
  length (images s') = config.maxImagesInMemory cfg
  /\ (useSqlite s = true -> length (table s') = length (table s) + length inputs)
  /\ getAllImages s' = images s'
  /\ length (getAllImages s') < length inputs.
Proof.
  intros Hmax HN Hrun Hall.
  destruct (addImages_all_true cfg inputs s s' rs Hmax Hrun Hall) as (H1 & _ & H3).
  { intros ->. cbn in HN. lia. }
  assert (Hlen : length (images s') = config.maxImagesInMemory cfg) by lia.
  split; [exact Hlen|]. split.
  - intros Hu. rewrite Hu in H3. exact H3.
  - split; [reflexivity|]. unfold getAllImages. lia.
Qed.

Lemma getAll_returns_the_working_set_witness :
  let s := load (sample_env "2024-06-01T00:00:00.000Z") (constructor [] None) in
  let s' := snd (addImages config.default (lightweight_run 101) s) in
  (length (images s') = 100
   /\ (useSqlite s = true -> length (table s') = length (table s) + 101)
   /\ getAllImages s' = images s'
   /\ length (getAllImages s') < 101)
  /\ has_fileId "virtual_0" (getAllImages s') = false
  /\ has_fileId "virtual_0" (table s') = true.
Proof.
  intros s s'. split.
  - apply (getAll_returns_the_working_set config.default (lightweight_run 101) s s'
             (fst (addImages config.default (lightweight_run 101) s))).
    + vm_compute. lia.
    + vm_compute. lia.
    + unfold s'. destruct (addImages config.default (lightweight_run 101) s).
      reflexivity.
    + vm_compute. repeat constructor.
  - split; vm_compute; reflexivity.
Defined.
End WorkingSet.

Section Idempotency.
Import imageDatabase.










End Idempotency.

(** ** Grouping *)

Section Grouping.
Import imageHasher.

(** A property that holds before a [for ... of] loop and is kept by every
    completed iteration holds when the loop completes. *)
Lemma for_of_invariant {A St : Type} (I : St -> Prop)
    (body : St -> A -> outcome St) (xs : list A) (acc res : St) :
  I acc ->
  (forall s x s', I s -> x ∈ xs -> body s x = Return s' -> I s') ->
  for_of body xs acc = Return res ->
  I res.
Proof.
  revert acc. induction xs as [|x xs IH]; intros acc Hacc Hstep Hrun.
  - cbn in Hrun. injection Hrun as <-. exact Hacc.
  - cbn in Hrun. destruct (body acc x) as [s'| |] eqn:Hb; try discriminate.
    cbn in Hrun. apply (IH s'); [| |exact Hrun].
    + apply (Hstep acc x s' Hacc); [left | exact Hb].
    + intros s y s'' Hs Hy. apply Hstep; [exact Hs | right; exact Hy].
Qed.

Lemma elem_of_concat {A : Type} (x : A) (ls : list (list A)) :
  x ∈ concat ls <-> exists l, x ∈ l /\ l ∈ ls.
Proof.
  induction ls as [|l ls IH]; cbn.
  - split; [intros H; apply elem_of_nil in H; contradiction|].
    intros (l & _ & H). apply elem_of_nil in H. contradiction.
  - rewrite elem_of_app, IH. split.
    + intros [H|(l' & H1 & H2)]; [exists l; split; [exact H | left]|].
      exists l'. split; [exact H1 | right; exact H2].
    + intros (l' & H1 & H2). apply elem_of_cons in H2 as [->|H2];
        [left; exact H1 | right; exists l'; split; assumption].
Qed.

Lemma compare_step_inv (images : list image) (threshold : number) (i : nat)
    (currentImage : image) (P : gset Z) (st st' : list image * gset Z) (j : nat) :
  group_inv images P st ->
  compare_step images threshold i currentImage st j = Return st' ->
  group_inv images P st'.
Proof.
  destruct st as [group Q]. intros (Hnd & HP & HQ & Hin & Hsub).
  unfold compare_step.
  destruct (i =? j)%nat; [intros [= <-]; repeat split; assumption|].
  destruct (images !! j) as [compareImage|] eqn:Hj;
    [|intros [= <-]; repeat split; assumption].
  destruct (decide (messageId compareImage ∈ Q)) as [|Hfresh];
    [intros [= <-]; repeat split; assumption|].
  destruct (calculateSimilarityPercentage _ _) as [similarity| |]; try discriminate.
  cbn [mbind outcome_bind].
  destruct (nge similarity threshold);
    [|intros [= <-]; repeat split; assumption].
  intros [= <-]. unfold group_inv. split; [|split; [|split; [|split]]].
  - rewrite fmap_app. cbn. apply NoDup_app. split; [exact Hnd|].
    split; [|apply NoDup_singleton].
    intros m Hm Hm'. apply list_elem_of_singleton in Hm'. subst m.
    apply list_elem_of_fmap in Hm as (x & Hx & Hxin).
    apply Hfresh. rewrite Hx. apply HQ. exact Hxin.
  - intros x Hx. apply elem_of_app in Hx as [Hx|Hx]; [apply HP; exact Hx|].
    apply list_elem_of_singleton in Hx. subst x. set_solver.
  - intros x Hx. apply elem_of_app in Hx as [Hx|Hx].
    + specialize (HQ x Hx). set_solver.
    + apply list_elem_of_singleton in Hx. subst x. set_solver.
  - intros x Hx. apply elem_of_app in Hx as [Hx|Hx]; [apply Hin; exact Hx|].
    apply list_elem_of_singleton in Hx. subst x.
    apply list_elem_of_lookup. exists j. exact Hj.
  - set_solver.
Qed.

Lemma group_step_inv (images : list image) (threshold : number)
    (st st' : list (list image) * gset Z) (i : nat) :
  groups_inv images st ->
  group_step images threshold st i = Return st' ->
  groups_inv images st'.
Proof.
  destruct st as [groups P]. intros (Hnd & HP & Hin & Hlen).
  unfold group_step.
  destruct (images !! i) as [currentImage|] eqn:Hi;
    [|intros [= <-]; repeat split; assumption].
  destruct (decide (messageId currentImage ∈ P)) as [|Hfresh];
    [intros [= <-]; repeat split; assumption|].
  destruct (for_of _ _ _) as [[group Q]| |] eqn:Hloop; try discriminate.
  cbn [mbind outcome_bind].
  assert (Hg : group_inv images P (group, Q)).
  { apply (for_of_invariant (group_inv images P) _ _ _ _) with (3 := Hloop).
    - unfold group_inv. split; [|split; [|split; [|split]]].
      + cbn. apply NoDup_singleton.
      + intros x Hx. apply list_elem_of_singleton in Hx. subst x. exact Hfresh.
      + intros x Hx. apply list_elem_of_singleton in Hx. subst x. set_solver.
      + intros x Hx. apply list_elem_of_singleton in Hx. subst x.
        apply list_elem_of_lookup. exists i. exact Hi.
      + set_solver.
    - intros s j s' Hs _ Hstep. eapply compare_step_inv; eassumption. }
  destruct Hg as (Hgnd & HgP & HgQ & Hgin & Hsub).
  destruct (Nat.ltb_spec 1 (length group)) as [Hbig|Hsmall]; intros [= <-].
  - unfold groups_inv. rewrite concat_app. cbn [concat]. rewrite app_nil_r.
    split; [|split; [|split]].
    + rewrite fmap_app. apply NoDup_app. split; [exact Hnd|]. split; [|exact Hgnd].
      intros m Hm Hm'.
      apply list_elem_of_fmap in Hm as (x & -> & Hx).
      apply list_elem_of_fmap in Hm' as (y & Hxy & Hy).
      apply (HgP y Hy). rewrite <- Hxy. apply HP. exact Hx.
    + intros x Hx. apply elem_of_app in Hx as [Hx|Hx].
      * apply (proj1 (elem_of_subseteq P Q) Hsub), HP, Hx.
      * apply HgQ. exact Hx.
    + intros x Hx. apply elem_of_app in Hx as [Hx|Hx]; [apply Hin | apply Hgin];
        exact Hx.
    + apply Forall_app. split; [exact Hlen|]. apply Forall_singleton. lia.
  - unfold groups_inv. split; [exact Hnd|]. split; [|split; assumption].
    intros x Hx. apply (proj1 (elem_of_subseteq P Q) Hsub), HP, Hx.
Qed.

(** [groupSimilarImages], when it returns, returns groups of at least two
    records of its input, and no message identifier, hence no record,
    occurs twice in them, be it in one group or in two. *)
Theorem groupSimilarImages_partition (images : list image) (threshold : number)
    (groups : list (list image)) :
  groupSimilarImages images threshold = Return groups ->
  NoDup (messageId <$> concat groups)
  /\ Forall (fun g => 2 <= length g) groups
  /\ (forall x, x ∈ concat groups -> x ∈ images)
  /\ (forall i j g1 g2 x,
        groups !! i = Some g1 -> groups !! j = Some g2 -> i <> j ->
        x ∈ g1 -> x ∉ g2).
Proof.
  unfold groupSimilarImages.
  destruct (for_of _ _ _) as [[groups' P]| |] eqn:Hloop; try discriminate.
  cbn. intros [= <-].
  assert (Hinv : groups_inv images (groups', P)).
  { apply (for_of_invariant (groups_inv images) _ _ _ _) with (3 := Hloop).
    - unfold groups_inv. cbn. split; [constructor|].
      split; [intros x Hx; apply elem_of_nil in Hx; contradiction|].
      split; [intros x Hx; apply elem_of_nil in Hx; contradiction|].
      constructor.
    - intros s i s' Hs _ Hstep. eapply group_step_inv; eassumption. }
  destruct Hinv as (Hnd & _ & Hin & Hlen).
  split; [exact Hnd|]. split; [exact Hlen|]. split; [exact Hin|].
  intros i j g1 g2 x Hi Hj Hij Hx1 Hx2.
  apply NoDup_fmap_1 in Hnd.
  revert i j g1 g2 Hi Hj Hij Hx1 Hx2 Hnd. clear.
  induction groups' as [|g gs IH]; intros i j g1 g2 Hi Hj Hij Hx1 Hx2 Hnd;
    [rewrite lookup_nil in Hi; discriminate|].
  cbn [concat] in Hnd. apply NoDup_app in Hnd as (_ & Hdisj & Hrest).
  destruct i as [|i], j as [|j]; cbn in Hi, Hj.
  - congruence.
  - injection Hi as <-. apply (Hdisj x Hx1).
    apply elem_of_concat. exists g2. split; [exact Hx2|].
    apply list_elem_of_lookup. exists j. exact Hj.
  - injection Hj as <-. apply (Hdisj x Hx2).
    apply elem_of_concat. exists g1. split; [exact Hx1|].
    apply list_elem_of_lookup. exists i. exact Hi.
  - apply (IH i j g1 g2); try assumption. congruence.
Qed.
End Grouping.

Section ReportGroups.
Import imageDatabase imageAnalyzer.

(** C6 (defect of the code): on a store that holds A, B and C, where A and
    B are similar, B and C are similar and A and C are not,
    [findSimilarGroups] returns two groups, the one of A and the one of C,
    and the record B is a member of both. *)
Theorem findSimilarGroups_overlap :
  imageHasher.areImagesSimilar config.default (hash image_A) (hash image_B) = Return true
  /\ imageHasher.areImagesSimilar config.default (hash image_B) (hash image_C) = Return true
  /\ imageHasher.areImagesSimilar config.default (hash image_A) (hash image_C) = Return false
  /\ exists g1 g2 b,
       findSimilarGroups config.default three_images = Return [g1; g2]
       /\ fileId (baseImage g1) = fileId image_A
       /\ fileId (baseImage g2) = fileId image_C
       /\ fileId b = fileId image_B
       /\ b ∈ members g1
       /\ b ∈ members g2.
Proof.
  split; [vm_compute; reflexivity|].
  split; [vm_compute; reflexivity|].
  split; [vm_compute; reflexivity|].
  eexists _, _, (with_addedAt (iso_at 2) image_B).
  split; [vm_compute; reflexivity|].
  split; [reflexivity|]. split; [reflexivity|]. split; [reflexivity|].
  split.
  - right. vm_compute. left.
  - right. vm_compute. left.
Qed.
End ReportGroups.

(** ** Sorting *)

Section StableSort.
Context {A : Type} (le : A -> A -> bool).



Hypothesis le_total : forall a b, le a b = true \/ le b a = true.

Hypothesis le_trans : forall a b c, le a b = true -> le b c = true -> le a c = true.


End StableSort.

(** ** The duplicate analysis of the lightweight scan *)

Section HashGroups.
Import updatedChannelScanner.











End HashGroups.

Section LightweightScan.
Import updatedChannelScanner.





End LightweightScan.
